(** * Avatar processing service (template.py): model and properties

    A shallow embedding of [AvatarProcessingService] and of the two
    dataclasses it uses.  Python objects that are shared and mutated (the
    [AvatarJob] records) live in a heap and are referred to by location; the
    [_jobs] dictionary maps keys to locations.  Everything the program asks
    of the outside (uuid4, hash, the clock, the HTTP endpoint) is answered by
    a [World] record, one per call of [submit_job]. *)

From Stdlib Require Import Ascii.
From Stdlib Require SpecFloat.
From stdpp Require Import gmap strings list fin_maps pretty.

Open Scope string_scope.
Set Warnings "-register-all".

(** ** Python values *)

(** What [response.json()] can return.  A JSON number without fraction and
    exponent is an [int]; any other is a [float], a binary64 value, given as
    the IEEE 754 specification describes it (a signed zero, a signed
    infinity, a NaN, or sign, mantissa and exponent). *)
Inductive pyval : Type :=
  | PyNone
  | PyBool (b : bool)
  | PyInt (z : Z)
  | PyFloat (x : SpecFloat.spec_float)
  | PyStr (s : string)
  | PyList (l : list pyval)
  | PyDict (d : list (string * pyval)).

(** The truth value Python's [if] gives to a value.  A float is false when
    it equals zero, of either sign; an infinity and a NaN are true. *)
Definition truthy (v : pyval) : bool :=
  match v with
  | PyNone => false
  | PyBool b => b
  | PyInt z => negb (z =? 0)%Z
  | PyFloat x => match x with SpecFloat.S754_zero _ => false | _ => true end
  | PyStr s => negb (String.eqb s EmptyString)
  | PyList l => negb (Nat.eqb (length l) 0)
  | PyDict d => negb (Nat.eqb (length d) 0)
  end.

(** Hashable values used as dictionary keys and job ids: a [str] or a
    [uuid.UUID] (given by its 128-bit integer).  A [str] never equals a
    [UUID]. *)
Inductive pykey : Type :=
  | KStr (s : string)
  | KUuid (u : N).

Global Instance pykey_eq_dec : EqDecision pykey.
Proof. solve_decision. Defined.

Global Instance pykey_countable : Countable pykey.
Proof.
  refine (inj_countable'
            (λ k, match k with KStr s => inl s | KUuid u => inr u end)
            (λ x, match x with inl s => KStr s | inr u => KUuid u end) _).
  intros []; reflexivity.
Defined.

(** [str(uuid)]: 32 lower-case hexadecimal digits, grouped 8-4-4-4-12. *)
Definition hex_char (d : N) : ascii :=
  let digits := "0123456789abcdef" in
  match String.get (N.to_nat d) digits with
  | Some c => c
  | None => "f"%char
  end.

Fixpoint hex_fixed (width : nat) (n : N) (acc : string) : string :=
  match width with
  | O => acc
  | S w => hex_fixed w (n `div` 16)%N (String (hex_char (n `mod` 16)%N) acc)
  end.

Definition str_uuid (u : N) : string :=
  let h := hex_fixed 32 u EmptyString in
  String.substring 0 8 h +:+ "-" +:+ String.substring 8 4 h +:+ "-"
  +:+ String.substring 12 4 h +:+ "-" +:+ String.substring 16 4 h +:+ "-"
  +:+ String.substring 20 12 h.

(** [repr(k)].  For a [str] without quote, backslash or control character
    (all the keys the program subscripts with are such) the repr is the
    string between single quotes. *)
Definition repr_pykey (k : pykey) : string :=
  match k with
  | KStr s => "'" +:+ s +:+ "'"
  | KUuid u => "UUID('" +:+ str_uuid u +:+ "')"
  end.

(** Exceptions.  [LibraryException] stands for whatever [requests.post] or
    [Response.json] raise (ConnectionError, Timeout, JSONDecodeError, ...),
    all of them subclasses of [Exception]; [text] is what [str(e)] yields.
    [Interrupt] stands for the classes that derive from [BaseException] only
    (KeyboardInterrupt, SystemExit). *)
Inductive exception : Type :=
  | KeyError (key : pykey)
  | TypeError (msg : string)
  | HTTPError (msg : string)
  | LibraryException (cls text : string)
  | Interrupt (cls : string).

(** [isinstance(e, Exception)] *)
Definition isinstance_Exception (e : exception) : bool :=
  match e with
  | Interrupt _ => false
  | _ => true
  end.

(** [str(e)].  A [KeyError] prints the repr of its key. *)
Definition str_exception (e : exception) : string :=
  match e with
  | KeyError key => repr_pykey key
  | TypeError msg => msg
  | HTTPError msg => msg
  | LibraryException _ text => text
  | Interrupt _ => EmptyString
  end.

(** How a call ends when it does not return: it raises an exception, or it
    never ends at all, as [requests.post] does when it is given no timeout
    and the endpoint does not answer. *)
Inductive failure : Type :=
  | Raised (e : exception)
  | NeverReturns.

Definition result (A : Type) : Type := (failure + A)%type.

(** A dictionary held as an association list: the first binding of a key. *)
Fixpoint dict_lookup (d : list (string * pyval)) (key : string) : option pyval :=
  match d with
  | [] => None
  | (k, v) :: d' => if String.eqb k key then Some v else dict_lookup d' key
  end.

(** [v[key]] with a string key. *)
Definition getitem (v : pyval) (key : string) : result pyval :=
  match v with
  | PyDict d =>
      match dict_lookup d key with
      | Some x => inr x
      | None => inl (Raised (KeyError (KStr key)))
      end
  | PyList _ =>
      inl (Raised (TypeError "list indices must be integers or slices, not str"))
  | PyStr _ => inl (Raised (TypeError "string indices must be integers, not 'str'"))
  | PyInt _ => inl (Raised (TypeError "'int' object is not subscriptable"))
  | PyFloat _ => inl (Raised (TypeError "'float' object is not subscriptable"))
  | PyBool _ => inl (Raised (TypeError "'bool' object is not subscriptable"))
  | PyNone => inl (Raised (TypeError "'NoneType' object is not subscriptable"))
  end.

(** The reading of [time.time()].  The program does nothing with that float
    but print it, so it is given by its repr, which is different for
    different floats. *)
Definition pyfloat : Type := string.

Definition datetime : Type := Z.

(** ** The dataclasses *)

Module ModerationResponse.
Record t : Type := mk {
  is_approved : pyval;
  reason : pyval
}.
End ModerationResponse.

Module AvatarJob.
Record t : Type := mk {
  id : pykey;
  user_id : string;
  status : string;
  input_data : string;
  output_url : option string;
  created_at : option datetime;
  error_message : pyval
}.

(** [self.created_at = datetime.now()] when it is None. *)
Definition __post_init__ (now : datetime) (self : t) : t :=
  match created_at self with
  | None =>
      mk (id self) (user_id self) (status self) (input_data self)
         (output_url self) (Some now) (error_message self)
  | Some _ => self
  end.

(** The call [AvatarJob(id=..., user_id=..., status=..., input_data=...,
    output_url=...)]: the other fields take their defaults. *)
Definition new (now : datetime) (id : pykey) (user_id status input_data : string)
    (output_url : option string) : t :=
  __post_init__ now (mk id user_id status input_data output_url None PyNone).

Definition set_status (s : string) (self : t) : t :=
  mk (id self) (user_id self) s (input_data self) (output_url self)
     (created_at self) (error_message self).

Definition set_error_message (m : pyval) (self : t) : t :=
  mk (id self) (user_id self) (status self) (input_data self)
     (output_url self) (created_at self) m.
End AvatarJob.

(** ** The HTTP boundary *)

Module Request.
(** The arguments of [requests.post]; [timeout] is None when the keyword
    is not given, and then the call waits without limit. *)
Record t : Type := mk {
  url : string;
  headers : list (string * string);
  data : list (string * string);
  timeout : option Z
}.
End Request.

Module Response.
Record t : Type := mk {
  status_code : Z;
  reason : string;
  url : string;
  json : result pyval
}.

(** [Response.raise_for_status] of the requests library.  It raises
    [HTTPError] for a 4xx or a 5xx status and nothing otherwise, as the
    comment at its call says: "Raise an exception for HTTP errors (4xx or
    5xx)". *)
Definition raise_for_status (self : t) : result unit :=
  if bool_decide (400 ≤ status_code self < 500)%Z then
    inl (Raised (HTTPError (pretty (status_code self) +:+ " Client Error: "
                            +:+ reason self +:+ " for url: " +:+ url self)))
  else if bool_decide (500 ≤ status_code self < 600)%Z then
    inl (Raised (HTTPError (pretty (status_code self) +:+ " Server Error: "
                            +:+ reason self +:+ " for url: " +:+ url self)))
  else inr ().
End Response.

(** The answers of the outside during one call of [submit_job].
    [requests_post] is what the call of [requests.post] with a given request
    does: it returns a response, raises, or never returns.  The library lets
    a call wait for ever only when the request has no timeout. *)
Record World : Type := mkWorld {
  uuid4 : N;
  hash : string → Z;
  time_time : pyfloat;
  datetime_now : datetime;
  requests_post : Request.t → result Response.t
}.

(** ** Program state and its monad *)

(** Locations are positions in the heap. *)
Abbreviation loc := nat (only parsing).

Module AvatarProcessingService.

Record t : Type := mk {
  moderation_api_url : string;
  api_token : string;
  _jobs : gmap pykey loc
}.

Definition __init__ (moderation_api_url api_token : string) : t :=
  mk moderation_api_url api_token ∅.

End AvatarProcessingService.

Record State : Type := mkState {
  self : AvatarProcessingService.t;
  heap : list AvatarJob.t
}.

(** Computations that read and write the state and that return, raise or
    never return; with a call that never returns comes the state in which it
    hangs. *)
Definition M (A : Type) : Type := State → result A * State.

Global Instance M_ret : MRet M := λ A a σ, (inr a, σ).

Global Instance M_bind : MBind M := λ A B k m σ,
  match m σ with
  | (inr a, σ') => k a σ'
  | (inl f, σ') => (inl f, σ')
  end.

Definition lift {A} (r : result A) : M A := λ σ, (r, σ).

(** [try: body  except Exception as e: handler e].  A body that never
    returns never reaches the handler. *)
Definition try_except_Exception {A} (body : M A) (handler : exception → M A) : M A :=
  λ σ, match body σ with
       | (inr a, σ') => (inr a, σ')
       | (inl (Raised e), σ') =>
           if isinstance_Exception e then handler e σ' else (inl (Raised e), σ')
       | (inl NeverReturns, σ') => (inl NeverReturns, σ')
       end.

(** Allocation of a new object. *)
Definition alloc (j : AvatarJob.t) : M loc :=
  λ σ, (inr (length (heap σ)), mkState (self σ) (heap σ ++ [j])).

(** [obj.status = s] and [obj.error_message = m] *)
Definition setattr_status (l : loc) (s : string) : M unit :=
  λ σ, (inr (), mkState (self σ) (alter (AvatarJob.set_status s) l (heap σ))).

Definition setattr_error_message (l : loc) (m : pyval) : M unit :=
  λ σ, (inr (), mkState (self σ) (alter (AvatarJob.set_error_message m) l (heap σ))).

(** [self._jobs[k] = l] *)
Definition jobs_setitem (k : pykey) (l : loc) : M unit :=
  λ σ, let s := self σ in
       (inr (),
        mkState (AvatarProcessingService.mk
                   (AvatarProcessingService.moderation_api_url s)
                   (AvatarProcessingService.api_token s)
                   (<[k := l]> (AvatarProcessingService._jobs s)))
                (heap σ)).

(** [k in self._jobs] *)
Definition jobs_contains (k : pykey) : M bool :=
  λ σ, (inr (bool_decide (is_Some (AvatarProcessingService._jobs (self σ) !! k))), σ).

(** [self._jobs[k]] *)
Definition jobs_getitem (k : pykey) : M loc :=
  λ σ, match AvatarProcessingService._jobs (self σ) !! k with
       | Some l => (inr l, σ)
       | None => (inl (Raised (KeyError k)), σ)
       end.

Definition get_self : M AvatarProcessingService.t := λ σ, (inr (self σ), σ).

(** ** The service *)

(** [_generate_mock_avatar_url]: the hash of the prompt and the clock
    reading, both printed by the f-string. *)
Definition _generate_mock_avatar_url (w : World) (prompt : string) : string :=
  "https://avatars.example.com/" +:+ pretty (hash w prompt) +:+ "_"
  +:+ time_time w +:+ ".png".

(** The arguments [call_moderation_api] gives to [requests.post]:
    [requests.post(self.moderation_api_url, headers=headers, data=data)]. *)
Definition moderation_request (s : AvatarProcessingService.t)
    (content user_id : string) : Request.t :=
  let headers := [("Authorization", "Bearer " +:+ AvatarProcessingService.api_token s)] in
  let data := [("content", content); ("user_id", user_id)] in
  Request.mk (AvatarProcessingService.moderation_api_url s) headers data None.

Definition call_moderation_api (w : World) (content user_id : string)
    : M ModerationResponse.t :=
  s ← get_self;
  response ← lift (requests_post w (moderation_request s content user_id));
  _ ← lift (Response.raise_for_status response);
  _body ← lift (Response.json response);
  approved ← lift (getitem _body "approved");
  reason ← lift (getitem _body "reason");
  mret (ModerationResponse.mk approved reason).

Definition submit_job (w : World) (user_id input_data : string) : M loc :=
  let id := KUuid (uuid4 w) in
  let output_url := _generate_mock_avatar_url w input_data in
  _job ← alloc (AvatarJob.new (datetime_now w) id user_id "pending" input_data
                  (Some output_url));
  _ ← jobs_setitem id _job;
  _ ← try_except_Exception
        (response ← call_moderation_api w input_data user_id;
         if truthy (ModerationResponse.is_approved response) then
           _ ← setattr_status _job "completed";
           setattr_error_message _job PyNone
         else
           _ ← setattr_status _job "rejected";
           setattr_error_message _job (ModerationResponse.reason response))
        (λ e,
           _ ← setattr_status _job "failed";
           setattr_error_message _job (PyStr (str_exception e)));
  mret _job.

Definition get_job_status (job_id : pykey) : M (option loc) :=
  present ← jobs_contains job_id;
  if present : bool then
    l ← jobs_getitem job_id;
    mret (Some l)
  else mret None.

(** The state after [AvatarProcessingService(moderation_api_url, api_token)]
    in a program that has created no job yet. *)
Definition initial (moderation_api_url api_token : string) : State :=
  mkState (AvatarProcessingService.__init__ moderation_api_url api_token) [].

(** ** Auxiliary definitions used in the statements *)

(** The state in which [submit_job] calls the moderation API: the new job is
    allocated, pending, and bound to its id in [_jobs]. *)
Definition stored (w : World) (user_id input_data : string) (σ : State) : State :=
  let s := self σ in
  let id := KUuid (uuid4 w) in
  mkState
    (AvatarProcessingService.mk
       (AvatarProcessingService.moderation_api_url s)
       (AvatarProcessingService.api_token s)
       (<[id := length (heap σ)]> (AvatarProcessingService._jobs s)))
    (heap σ ++ [AvatarJob.new (datetime_now w) id user_id "pending" input_data
                  (Some (_generate_mock_avatar_url w input_data))]).

(** The two attribute assignments that end [submit_job]. *)
Definition finished (l : loc) (s : string) (m : pyval) (σ : State) : State :=
  mkState (self σ)
    (alter (AvatarJob.set_error_message m) l
       (alter (AvatarJob.set_status s) l (heap σ))).

Definition terminal (s : string) : Prop :=
  s = "completed" ∨ s = "rejected" ∨ s = "failed".

(** The exception was raised inside the requests library, by [requests.post]
    or by [Response.json], and not by the program's own checks. *)
Definition raised_by_requests (w : World) (s : AvatarProcessingService.t)
    (content user_id : string) (e : exception) : Prop :=
  requests_post w (moderation_request s content user_id) = inl (Raised e)
  ∨ ∃ response,
      requests_post w (moderation_request s content user_id) = inr response
      ∧ Response.json response = inl (Raised e).

(** States of a program that creates the service and then only calls
    [submit_job] and [get_job_status]. *)
Inductive reachable : State → Prop :=
  | reachable_initial url token :
      reachable (initial url token)
  | reachable_submit_job σ w user_id input_data :
      reachable σ → reachable (submit_job w user_id input_data σ).2
  | reachable_get_job_status σ job_id :
      reachable σ → reachable (get_job_status job_id σ).2.

(** What holds of the store in every reachable state: every key is a UUID,
    and is the id of the job it is bound to. *)
Definition store_ok (σ : State) : Prop :=
  ∀ k l, AvatarProcessingService._jobs (self σ) !! k = Some l →
    ∃ u j, k = KUuid u ∧ heap σ !! l = Some j ∧ AvatarJob.id j = KUuid u.

(** Concrete inputs for the examples. *)
Module Examples.
Definition endpoint : string := "https://api.example.com".

Definition response (code : Z) (phrase : string) (body : result pyval) : Response.t :=
  Response.mk code phrase endpoint body.

Definition body (approved reason : pyval) : pyval :=
  PyDict [("approved", approved); ("reason", reason)].

Definition world (u : N) (clock : pyfloat) (answer : result Response.t) : World :=
  mkWorld u (λ prompt, Z.of_nat (String.length prompt)) clock 0%Z (λ _, answer).

Definition σ0 : State := initial endpoint "your-api-token-here".

Definition user : string := "user123".
Definition prompt : string := "A friendly robot avatar with blue eyes".

(** 200 with [{"approved": true, "reason": "Content appears safe"}] *)
Definition w_approved : World :=
  world 7 "1700000000.25"
    (inr (response 200 "OK" (inr (body (PyBool true) (PyStr "Content appears safe"))))).

(** 200 with [{"approved": false, "reason": "unsafe"}] *)
Definition w_rejected : World :=
  world 7 "1700000000.25"
    (inr (response 200 "OK" (inr (body (PyBool false) (PyStr "unsafe"))))).

(** 200 with [{"approved": false, "reason": null}] *)
Definition w_rejected_null : World :=
  world 7 "1700000000.25"
    (inr (response 200 "OK" (inr (body (PyBool false) PyNone)))).

(** 200 with [{"approved": false}] *)
Definition w_no_reason : World :=
  world 7 "1700000000.25"
    (inr (response 200 "OK" (inr (PyDict [("approved", PyBool false)])))).

(** 500 *)
Definition w_server_error : World :=
  world 7 "1700000000.25"
    (inr (response 500 "Internal Server Error" (inr PyNone))).

(** 300 with a well-formed body *)
Definition answer_300 : Response.t :=
  response 300 "Multiple Choices"
    (inr (body (PyBool true) (PyStr "Content appears safe"))).
Definition w_300 : World := world 7 "1700000000.25" (inr answer_300).

(** [requests.post] raises [requests.exceptions.Timeout()] *)
Definition w_timeout : World :=
  world 7 "1700000000.25" (inl (Raised (LibraryException "Timeout" EmptyString))).

(** A second submission at the same clock reading, with a new uuid. *)
Definition w_approved_again : World :=
  world 8 "1700000000.25"
    (inr (response 200 "OK" (inr (body (PyBool true) (PyStr "Content appears safe"))))).

(** The states after one and after two submissions. *)
Definition σ1 : State := (submit_job w_approved user prompt σ0).2.
Definition σ2 : State := (submit_job w_approved_again user prompt σ1).2.
End Examples.

(** ** Sequences of calls *)

(** The calls a client of the service can make. *)
Inductive call : Type :=
  | SubmitJob (w : World) (user_id input_data : string)
  | GetJobStatus (job_id : pykey).

(** The state a call leaves, whether it returns or raises. *)
Definition after_call (σ : State) (c : call) : State :=
  match c with
  | SubmitJob w user_id input_data => (submit_job w user_id input_data σ).2
  | GetJobStatus job_id => (get_job_status job_id σ).2
  end.

Definition after_calls (σ : State) (cs : list call) : State :=
  foldl after_call σ cs.

(** The uuids drawn by the submissions of a sequence of calls. *)
Definition drawn (cs : list call) : list N :=
  omap (λ c, match c with
             | SubmitJob w _ _ => Some (uuid4 w)
             | GetJobStatus _ => None
             end) cs.

(** What holds of every job record the program creates. *)
Definition job_ok (j : AvatarJob.t) : Prop :=
  (∃ u, AvatarJob.id j = KUuid u)
  ∧ is_Some (AvatarJob.created_at j)
  ∧ (∃ name, AvatarJob.output_url j
             = Some ("https://avatars.example.com/" +:+ name +:+ ".png"))
  ∧ ((AvatarJob.status j = "pending" ∧ AvatarJob.error_message j = PyNone)
     ∨ (AvatarJob.status j = "completed" ∧ AvatarJob.error_message j = PyNone)
     ∨ AvatarJob.status j = "rejected"
     ∨ (AvatarJob.status j = "failed"
        ∧ ∃ m, AvatarJob.error_message j = PyStr m)).

(** ** The example program *)


(** Reading through a reference.  A location that [alloc] has returned is
    always in the heap; the default is for the others. *)
Global Instance AvatarJob_inhabited : Inhabited AvatarJob.t :=
  populate (AvatarJob.mk (KStr EmptyString) EmptyString EmptyString EmptyString
              None None PyNone).



(** More concrete inputs. *)
Module Runs.
(** [requests.post] is interrupted from the keyboard. *)
Definition w_interrupt : World :=
  Examples.world 9 "1700000001.5" (inl (Raised (Interrupt "KeyboardInterrupt"))).

(** The endpoint never answers. *)
Definition w_silent : World :=
  Examples.world 9 "1700000001.5" (inl NeverReturns).

(** 200 with [{"approved": 0.0, "reason": "unsafe"}] and with
    [{"approved": 0.5, "reason": "unsafe"}] *)
Definition w_float_zero : World :=
  Examples.world 9 "1700000001.5"
    (inr (Examples.response 200 "OK"
            (inr (Examples.body (PyFloat (SpecFloat.S754_zero false))
                    (PyStr "unsafe"))))).
Definition w_float_half : World :=
  Examples.world 9 "1700000001.5"
    (inr (Examples.response 200 "OK"
            (inr (Examples.body
                    (PyFloat (SpecFloat.S754_finite false 4503599627370496 (-53)))
                    (PyStr "unsafe"))))).

(** 200 with [{"approved": "false", "reason": "unsafe"}] *)
Definition w_string_false : World :=
  Examples.world 9 "1700000001.5"
    (inr (Examples.response 200 "OK"
            (inr (Examples.body (PyStr "false") (PyStr "unsafe"))))).

(** 404 with a body that approves *)
Definition answer_404 : Response.t :=
  Examples.response 404 "Not Found"
    (inr (Examples.body (PyBool true) (PyStr "Content appears safe"))).
Definition w_404 : World := Examples.world 9 "1700000001.5" (inr answer_404).

(** A submission that draws again the uuid of the first job. *)
Definition σ_collision : State :=
  (submit_job Examples.w_rejected Examples.user "Another prompt" Examples.σ1).2.

(** Calls that follow the first submission. *)
Definition later_calls : list call :=
  [SubmitJob Examples.w_approved_again Examples.user Examples.prompt;
   GetJobStatus (KStr "unknown");
   SubmitJob w_404 Examples.user "Another prompt"].

(** The record of the first job. *)
Definition first_job : AvatarJob.t :=
  AvatarJob.mk (KUuid 7) "user123" "completed"
    "A friendly robot avatar with blue eyes"
    (Some "https://avatars.example.com/38_1700000000.25.png")
    (Some 0%Z) PyNone.
End Runs.

(** Whether a character occurs in a string. *)
Fixpoint occurs (c : ascii) (s : string) : bool :=
  match s with
  | EmptyString => false
  | String a s' => if Ascii.eqb a c then true else occurs c s'
  end.

(** ** Basic facts about the monad and the primitives *)

Ltac unfold_M :=
  unfold mbind, M_bind, mret, M_ret, lift, try_except_Exception,
    get_self, alloc, jobs_setitem, jobs_contains, jobs_getitem,
    setattr_status, setattr_error_message in *.

Lemma call_moderation_api_state w content user_id σ :
  (call_moderation_api w content user_id σ).2 = σ.
Proof.
  unfold call_moderation_api. unfold_M. simpl.
  destruct (requests_post w _) as [e|response]; [done|].
  destruct (Response.raise_for_status response) as [e|[]]; [done|].
  destruct (Response.json response) as [e|_body]; [done|].
  destruct (getitem _body "approved") as [e|approved]; [done|].
  destruct (getitem _body "reason") as [e|reason]; done.
Qed.

Lemma call_moderation_api_self w content user_id σ1 σ2 :
  AvatarProcessingService.moderation_api_url (self σ1)
    = AvatarProcessingService.moderation_api_url (self σ2) →
  AvatarProcessingService.api_token (self σ1)
    = AvatarProcessingService.api_token (self σ2) →
  (call_moderation_api w content user_id σ1).1
  = (call_moderation_api w content user_id σ2).1.
Proof.
  intros Hurl Htok. unfold call_moderation_api. unfold_M. simpl.
  unfold moderation_request. rewrite Hurl, Htok.
  destruct (requests_post w _) as [e|response]; [done|].
  destruct (Response.raise_for_status response) as [e|[]]; [done|].
  destruct (Response.json response) as [e|_body]; [done|].
  destruct (getitem _body "approved") as [e|approved]; [done|].
  destruct (getitem _body "reason") as [e|reason]; done.
Qed.

Lemma call_moderation_api_stored w content user_id uid inp σ :
  call_moderation_api w content user_id (stored w uid inp σ)
  = ((call_moderation_api w content user_id σ).1, stored w uid inp σ).
Proof.
  rewrite (surjective_pairing (call_moderation_api _ _ _ (stored _ _ _ _))).
  rewrite call_moderation_api_state. f_equal.
  by apply call_moderation_api_self.
Qed.

(** [submit_job], step by step. *)
Lemma submit_job_unfold w user_id input_data σ :
  submit_job w user_id input_data σ =
    let l := length (heap σ) in
    let σ1 := stored w user_id input_data σ in
    match (call_moderation_api w input_data user_id σ).1 with
    | inr response =>
        if truthy (ModerationResponse.is_approved response)
        then (inr l, finished l "completed" PyNone σ1)
        else (inr l, finished l "rejected" (ModerationResponse.reason response) σ1)
    | inl (Raised e) =>
        if isinstance_Exception e
        then (inr l, finished l "failed" (PyStr (str_exception e)) σ1)
        else (inl (Raised e), σ1)
    | inl NeverReturns => (inl NeverReturns, σ1)
    end.
Proof.
  unfold submit_job.
  unfold mbind at 1 2 3. unfold M_bind, alloc, jobs_setitem. simpl.
  change (mkState _ (heap σ ++ _)) with (stored w user_id input_data σ).
  unfold try_except_Exception. unfold mbind at 1. unfold M_bind.
  rewrite call_moderation_api_stored.
  destruct (call_moderation_api w input_data user_id σ).1 as [[e|]|response]; simpl.
  - destruct (isinstance_Exception e); done.
  - done.
  - destruct (truthy _); done.
Qed.

(** The heap after the job is stored and after the final assignments. *)
Lemma stored_lookup_new w user_id input_data σ :
  heap (stored w user_id input_data σ) !! length (heap σ)
  = Some (AvatarJob.new (datetime_now w) (KUuid (uuid4 w)) user_id "pending"
            input_data (Some (_generate_mock_avatar_url w input_data))).
Proof. unfold stored; simpl. by rewrite list_lookup_middle. Qed.

Lemma stored_lookup_old w user_id input_data σ l :
  l < length (heap σ) →
  heap (stored w user_id input_data σ) !! l = heap σ !! l.
Proof. intros Hl. unfold stored; simpl. by rewrite lookup_app_l. Qed.

Lemma finished_lookup l s m σ j :
  heap σ !! l = Some j →
  heap (finished l s m σ) !! l
  = Some (AvatarJob.set_error_message m (AvatarJob.set_status s j)).
Proof.
  intros Hj. unfold finished; cbn [heap].
  by rewrite !list_lookup_alter_eq, Hj.
Qed.

Lemma finished_lookup_ne l l' s m σ :
  l ≠ l' → heap (finished l s m σ) !! l' = heap σ !! l'.
Proof.
  intros Hne. unfold finished; cbn [heap].
  by rewrite !list_lookup_alter_ne.
Qed.

Lemma finished_length l s m σ : length (heap (finished l s m σ)) = length (heap σ).
Proof. unfold finished; cbn [heap]. by rewrite !length_alter. Qed.

(** Everything [submit_job] does, in one statement: the store gains the
    binding of the new id, the jobs that existed are left alone, and the new
    job ends in the state that the outcome of the moderation call decides. *)
Lemma submit_job_inv w user_id input_data σ r σ' :
  submit_job w user_id input_data σ = (r, σ') →
  let l := length (heap σ) in
  self σ' = self (stored w user_id input_data σ)
  ∧ length (heap σ') = S l
  ∧ (∀ l', l' < l → heap σ' !! l' = heap σ !! l')
  ∧ ∃ j, heap σ' !! l = Some j
      ∧ AvatarJob.id j = KUuid (uuid4 w)
      ∧ AvatarJob.output_url j = Some (_generate_mock_avatar_url w input_data)
      ∧ match (call_moderation_api w input_data user_id σ).1 with
        | inr response =>
            r = inr l
            ∧ if truthy (ModerationResponse.is_approved response)
              then AvatarJob.status j = "completed"
                   ∧ AvatarJob.error_message j = PyNone
              else AvatarJob.status j = "rejected"
                   ∧ AvatarJob.error_message j = ModerationResponse.reason response
        | inl (Raised e) =>
            if isinstance_Exception e
            then r = inr l ∧ AvatarJob.status j = "failed"
                 ∧ AvatarJob.error_message j = PyStr (str_exception e)
            else r = inl (Raised e) ∧ AvatarJob.status j = "pending"
                 ∧ AvatarJob.error_message j = PyNone
        | inl NeverReturns =>
            r = inl NeverReturns ∧ AvatarJob.status j = "pending"
            ∧ AvatarJob.error_message j = PyNone
        end.
Proof.
  rewrite submit_job_unfold. cbv zeta.
  pose proof (stored_lookup_new w user_id input_data σ) as Hnew.
  assert (length (heap (stored w user_id input_data σ)) = S (length (heap σ)))
    as Hlen by (unfold stored; simpl; rewrite length_app; simpl; lia).
  assert (∀ s m l', l' < length (heap σ) →
            heap (finished (length (heap σ)) s m (stored w user_id input_data σ)) !! l'
            = heap σ !! l') as Hold.
  { intros s m l' Hl'. rewrite finished_lookup_ne by lia.
    by apply stored_lookup_old. }
  destruct (call_moderation_api w input_data user_id σ).1 as [[e|]|response].
  - destruct (isinstance_Exception e); intros [= <- <-].
    + split; [done|]. split; [by rewrite finished_length|]. split; [by auto|].
      eexists. split; [by apply finished_lookup|]. done.
    + split; [done|]. split; [done|].
      split; [by intros; apply stored_lookup_old|].
      eexists. split; [exact Hnew|]. done.
  - intros [= <- <-]. split; [done|]. split; [done|].
    split; [by intros; apply stored_lookup_old|].
    eexists. split; [exact Hnew|]. done.
  - destruct (truthy (ModerationResponse.is_approved response)); intros [= <- <-].
    + split; [done|]. split; [by rewrite finished_length|]. split; [by auto|].
      eexists. split; [by apply finished_lookup|]. done.
    + split; [done|]. split; [by rewrite finished_length|]. split; [by auto|].
      eexists. split; [by apply finished_lookup|]. done.
Qed.

(** ** Strings *)

Lemma append_nil_l (s : string) : EmptyString +:+ s = s.
Proof. reflexivity. Qed.

Lemma append_cons (a : ascii) (s t : string) : String a s +:+ t = String a (s +:+ t).
Proof. reflexivity. Qed.

Lemma length_append (s t : string) :
  String.length (s +:+ t) = String.length s + String.length t.
Proof.
  induction s as [|a s IH]; [done|].
  rewrite append_cons. simpl. by rewrite IH.
Qed.

Lemma append_inj_r (s1 s2 t : string) : s1 +:+ t = s2 +:+ t → s1 = s2.
Proof.
  revert s2. induction s1 as [|a s1 IH]; intros [|b s2] H.
  - done.
  - apply (f_equal String.length) in H.
    rewrite append_nil_l, append_cons in H. simpl in H.
    rewrite length_append in H. lia.
  - apply (f_equal String.length) in H.
    rewrite append_nil_l, append_cons in H. simpl in H.
    rewrite length_append in H. lia.
  - rewrite !append_cons in H. injection H as -> H. f_equal. by apply IH.
Qed.

Lemma append_nonempty_r (s t : string) : t ≠ EmptyString → s +:+ t ≠ EmptyString.
Proof.
  intros Ht H. apply (f_equal String.length) in H.
  rewrite length_append in H. destruct t; [done|]. simpl in H. lia.
Qed.

(** ** What [call_moderation_api] returns and raises *)

Lemma raise_for_status_nonempty response e :
  Response.raise_for_status response = inl (Raised e) →
  str_exception e ≠ EmptyString.
Proof.
  unfold Response.raise_for_status.
  repeat case_bool_decide; intros [= <-]; simpl;
    apply append_nonempty_r; rewrite append_cons; discriminate.
Qed.

Lemma getitem_nonempty v key e :
  getitem v key = inl (Raised e) → str_exception e ≠ EmptyString.
Proof.
  destruct v; simpl; try (intros [= <-]; discriminate).
  destruct (dict_lookup d key); intros [= <-]. simpl.
  rewrite append_cons. discriminate.
Qed.

(** An unfolding of [call_moderation_api] as a cascade of matches. *)
Lemma call_moderation_api_unfold w content user_id σ :
  call_moderation_api w content user_id σ =
    (match requests_post w (moderation_request (self σ) content user_id) with
     | inl e => inl e
     | inr response =>
         match Response.raise_for_status response with
         | inl e => inl e
         | inr _ =>
             match Response.json response with
             | inl e => inl e
             | inr _body =>
                 match getitem _body "approved" with
                 | inl e => inl e
                 | inr approved =>
                     match getitem _body "reason" with
                     | inl e => inl e
                     | inr reason => inr (ModerationResponse.mk approved reason)
                     end
                 end
             end
         end
     end, σ).
Proof.
  unfold call_moderation_api. unfold_M. simpl.
  destruct (requests_post w _) as [e|response]; [done|].
  destruct (Response.raise_for_status response) as [e|[]]; [done|].
  destruct (Response.json response) as [e|_body]; [done|].
  destruct (getitem _body "approved") as [e|approved]; [done|].
  destruct (getitem _body "reason") as [e|reason]; done.
Qed.

(** A network failure or a timeout: [requests.post] raises. *)
Lemma call_moderation_api_post_raises w content user_id σ e :
  requests_post w (moderation_request (self σ) content user_id) = inl e →
  call_moderation_api w content user_id σ = (inl e, σ).
Proof. intros H. by rewrite call_moderation_api_unfold, H. Qed.

(** A 4xx or 5xx status. *)
Lemma call_moderation_api_http_error w content user_id σ response :
  requests_post w (moderation_request (self σ) content user_id) = inr response →
  (400 ≤ Response.status_code response < 600)%Z →
  ∃ msg, call_moderation_api w content user_id σ = (inl (Raised (HTTPError msg)), σ).
Proof.
  intros H Hcode. rewrite call_moderation_api_unfold, H.
  unfold Response.raise_for_status.
  repeat case_bool_decide; eauto. lia.
Qed.

(** A body that is not JSON. *)
Lemma call_moderation_api_json_raises w content user_id σ response e :
  requests_post w (moderation_request (self σ) content user_id) = inr response →
  Response.raise_for_status response = inr () →
  Response.json response = inl e →
  call_moderation_api w content user_id σ = (inl e, σ).
Proof. intros H1 H2 H3. by rewrite call_moderation_api_unfold, H1, H2, H3. Qed.

(** A JSON object without the [approved] key. *)
Lemma call_moderation_api_missing_approved w content user_id σ response d :
  requests_post w (moderation_request (self σ) content user_id) = inr response →
  Response.raise_for_status response = inr () →
  Response.json response = inr (PyDict d) →
  dict_lookup d "approved" = None →
  call_moderation_api w content user_id σ
  = (inl (Raised (KeyError (KStr "approved"))), σ).
Proof.
  intros H1 H2 H3 H4. rewrite call_moderation_api_unfold, H1, H2, H3.
  simpl. by rewrite H4.
Qed.

(** A JSON value that is not an object. *)
Lemma call_moderation_api_not_a_dict w content user_id σ response _body :
  requests_post w (moderation_request (self σ) content user_id) = inr response →
  Response.raise_for_status response = inr () →
  Response.json response = inr _body →
  (∀ d, _body ≠ PyDict d) →
  ∃ msg, call_moderation_api w content user_id σ = (inl (Raised (TypeError msg)), σ).
Proof.
  intros H1 H2 H3 H4. rewrite call_moderation_api_unfold, H1, H2, H3.
  destruct _body; simpl; eauto. by destruct (H4 d).
Qed.

(** A JSON object with both keys is parsed. *)
Lemma call_moderation_api_parses w content user_id σ response d approved reason :
  requests_post w (moderation_request (self σ) content user_id) = inr response →
  Response.raise_for_status response = inr () →
  Response.json response = inr (PyDict d) →
  dict_lookup d "approved" = Some approved →
  dict_lookup d "reason" = Some reason →
  call_moderation_api w content user_id σ
  = (inr (ModerationResponse.mk approved reason), σ).
Proof.
  intros H1 H2 H3 H4 H5. rewrite call_moderation_api_unfold, H1, H2, H3.
  simpl. by rewrite H4, H5.
Qed.

(** Whatever is raised with an empty text comes from the requests library:
    the exceptions the program raises itself all carry a text. *)
Lemma call_moderation_api_empty_text w content user_id σ e :
  (call_moderation_api w content user_id σ).1 = inl (Raised e) →
  str_exception e = EmptyString →
  raised_by_requests w (self σ) content user_id e.
Proof.
  rewrite call_moderation_api_unfold. simpl. unfold raised_by_requests.
  destruct (requests_post w _) as [e0|response] eqn:Hpost.
  { intros [= ->] _. by left. }
  destruct (Response.raise_for_status response) as [e0|[]] eqn:Hst.
  { intros [= ->] Hempty. by apply raise_for_status_nonempty in Hst. }
  destruct (Response.json response) as [e0|_body] eqn:Hjson.
  { intros [= ->] _. right. eauto. }
  destruct (getitem _body "approved") as [e0|approved] eqn:Ha.
  { intros [= ->] Hempty. by apply getitem_nonempty in Ha. }
  destruct (getitem _body "reason") as [e0|reason] eqn:Hr; [|done].
  intros [= ->] Hempty. by apply getitem_nonempty in Hr.
Qed.

(** ** The job lifecycle *)

(** [submit_job] returns when the moderation call ends, unless an exception
    that is not an [Exception] (an interrupt) crosses it. *)
Lemma submit_job_returns w user_id input_data σ :
  (call_moderation_api w input_data user_id σ).1 ≠ inl NeverReturns →
  (∀ cls, (call_moderation_api w input_data user_id σ).1
          ≠ inl (Raised (Interrupt cls))) →
  ∃ σ', submit_job w user_id input_data σ = (inr (length (heap σ)), σ').
Proof.
  intros Hends Hint. rewrite submit_job_unfold. cbv zeta.
  destruct (call_moderation_api w input_data user_id σ).1 as [[e|]|response].
  - destruct e; simpl; eauto. by destruct (Hint cls).
  - done.
  - destruct (truthy _); eauto.
Qed.

(** C1 (as amended): when [call_moderation_api] raises an [Exception] [e],
    [submit_job] does not raise: it returns a job whose status is "failed"
    and whose error_message is the string [str(e)]; that string is not empty
    unless the exception was raised inside the requests library with an
    empty text. *)
Theorem submit_job_failed w user_id input_data σ e :
  call_moderation_api w input_data user_id σ = (inl (Raised e), σ) →
  isinstance_Exception e = true →
  ∃ l σ' j,
    submit_job w user_id input_data σ = (inr l, σ')
    ∧ heap σ' !! l = Some j
    ∧ AvatarJob.status j = "failed"
    ∧ AvatarJob.error_message j = PyStr (str_exception e)
    ∧ (str_exception e = EmptyString →
       raised_by_requests w (self σ) input_data user_id e).
Proof.
  intros Hcall Hexc.
  destruct (submit_job w user_id input_data σ) as [r σ'] eqn:Hsub.
  apply submit_job_inv in Hsub as (_ & _ & _ & j & Hj & _ & _ & Hout).
  rewrite Hcall in Hout. simpl in Hout. rewrite Hexc in Hout.
  destruct Hout as (-> & Hst & Hmsg).
  exists (length (heap σ)), σ', j. repeat split; try done.
  apply call_moderation_api_empty_text. by rewrite Hcall.
Qed.

(** The case of an error status: the job fails with the text that
    [raise_for_status] composes, which is never empty. *)
Lemma submit_job_http_error w user_id input_data σ response :
  requests_post w (moderation_request (self σ) input_data user_id) = inr response →
  (400 ≤ Response.status_code response < 600)%Z →
  ∃ l σ' j msg,
    submit_job w user_id input_data σ = (inr l, σ')
    ∧ heap σ' !! l = Some j
    ∧ AvatarJob.status j = "failed"
    ∧ AvatarJob.error_message j = PyStr msg
    ∧ msg ≠ EmptyString.
Proof.
  intros Hpost Hcode.
  destruct (Response.raise_for_status response) as [[e|]|[]] eqn:Hraise;
    [|unfold Response.raise_for_status in Hraise;
      repeat case_bool_decide; try done; lia..].
  assert (call_moderation_api w input_data user_id σ = (inl (Raised e), σ)) as Hcall
    by (by rewrite call_moderation_api_unfold, Hpost, Hraise).
  assert (isinstance_Exception e = true) as Hexc.
  { unfold Response.raise_for_status in Hraise.
    by repeat case_bool_decide; simplify_eq. }
  destruct (submit_job w user_id input_data σ) as [r σ'] eqn:Hsub.
  apply submit_job_inv in Hsub as (_ & _ & _ & j & Hj & _ & _ & Hout).
  rewrite Hcall in Hout. simpl in Hout. rewrite Hexc in Hout.
  destruct Hout as (-> & Hst & Hmsg).
  exists (length (heap σ)), σ', j, (str_exception e). split_and!; try done.
  by eapply raise_for_status_nonempty.
Qed.

(** C2: when the moderation call returns a result whose [approved] is true,
    the job returned by [submit_job] has status "completed" and a null
    error_message. *)
Theorem submit_job_approved w user_id input_data σ response :
  call_moderation_api w input_data user_id σ = (inr response, σ) →
  ModerationResponse.is_approved response = PyBool true →
  ∃ l σ' j,
    submit_job w user_id input_data σ = (inr l, σ')
    ∧ heap σ' !! l = Some j
    ∧ AvatarJob.status j = "completed"
    ∧ AvatarJob.error_message j = PyNone.
Proof.
  intros Hcall Happroved.
  destruct (submit_job w user_id input_data σ) as [r σ'] eqn:Hsub.
  apply submit_job_inv in Hsub as (_ & _ & _ & j & Hj & _ & _ & Hout).
  rewrite Hcall in Hout. simpl in Hout. rewrite Happroved in Hout.
  destruct Hout as (-> & Hst & Hmsg).
  by exists (length (heap σ)), σ', j.
Qed.

(** C3: when the moderation call returns a result whose [approved] is false
    together with a reason string, the job returned by [submit_job] has
    status "rejected" and that reason as its error_message. *)
Theorem submit_job_rejected w user_id input_data σ response reason :
  call_moderation_api w input_data user_id σ = (inr response, σ) →
  ModerationResponse.is_approved response = PyBool false →
  ModerationResponse.reason response = PyStr reason →
  ∃ l σ' j,
    submit_job w user_id input_data σ = (inr l, σ')
    ∧ heap σ' !! l = Some j
    ∧ AvatarJob.status j = "rejected"
    ∧ AvatarJob.error_message j = PyStr reason.
Proof.
  intros Hcall Happroved Hreason.
  destruct (submit_job w user_id input_data σ) as [r σ'] eqn:Hsub.
  apply submit_job_inv in Hsub as (_ & _ & _ & j & Hj & _ & _ & Hout).
  rewrite Hcall in Hout. simpl in Hout. rewrite Happroved, Hreason in Hout.
  destruct Hout as (-> & Hst & Hmsg).
  by exists (length (heap σ)), σ', j.
Qed.

(** C4 (as amended): whenever the moderation call ends, by returning or by
    raising, and no interrupt crosses it, [submit_job] returns a job in one
    of the three terminal statuses; its error_message is null when the
    status is "completed", a string when it is "failed", and the reason of
    the moderation result, null or not, when it is "rejected".  So the
    error_message is non-null exactly when the status is "failed", or is
    "rejected" with a non-null reason.  (A call that never ends, which the
    missing timeout allows, leaves the job pending and nothing returned.) *)
Theorem submit_job_terminal w user_id input_data σ :
  (call_moderation_api w input_data user_id σ).1 ≠ inl NeverReturns →
  (∀ cls, (call_moderation_api w input_data user_id σ).1
          ≠ inl (Raised (Interrupt cls))) →
  ∃ l σ' j,
    submit_job w user_id input_data σ = (inr l, σ')
    ∧ heap σ' !! l = Some j
    ∧ terminal (AvatarJob.status j)
    ∧ (AvatarJob.status j = "completed" → AvatarJob.error_message j = PyNone)
    ∧ (AvatarJob.status j = "failed" → ∃ m, AvatarJob.error_message j = PyStr m)
    ∧ (AvatarJob.status j = "rejected" →
       ∃ response,
         (call_moderation_api w input_data user_id σ).1 = inr response
         ∧ AvatarJob.error_message j = ModerationResponse.reason response)
    ∧ (AvatarJob.error_message j ≠ PyNone ↔
       AvatarJob.status j = "failed"
       ∨ (AvatarJob.status j = "rejected"
          ∧ ∃ response,
              (call_moderation_api w input_data user_id σ).1 = inr response
              ∧ ModerationResponse.reason response ≠ PyNone)).
Proof.
  intros Hends Hint.
  destruct (submit_job w user_id input_data σ) as [r σ'] eqn:Hsub.
  apply submit_job_inv in Hsub as (_ & _ & _ & j & Hj & _ & _ & Hout).
  exists (length (heap σ)), σ', j. unfold terminal.
  destruct (call_moderation_api w input_data user_id σ).1 as [[e|]|response].
  - destruct e; simpl in Hout; try by destruct (Hint cls).
    all: destruct Hout as (-> & Hst & Hmsg); rewrite Hst, Hmsg.
    all: split_and!; try done; eauto.
    all: split; [by left | done].
  - done.
  - destruct Hout as [-> Hout].
    destruct (truthy _); destruct Hout as [Hst Hmsg]; rewrite Hst, Hmsg.
    + split_and!; try done; eauto.
      split; [done | by intros [?|[? _]]].
    + split_and!; try done; eauto. split.
      * intros Hne. right. split; [done|]. eauto.
      * by intros [?|[_ (response' & [= <-] & Hne)]].
Qed.

(** *** Concrete runs *)

Lemma submit_job_failed_witness :
  ∃ l σ' j,
    submit_job Examples.w_server_error Examples.user Examples.prompt Examples.σ0
    = (inr l, σ')
    ∧ heap σ' !! l = Some j
    ∧ AvatarJob.status j = "failed"
    ∧ AvatarJob.error_message j
      = PyStr "500 Server Error: Internal Server Error for url: https://api.example.com".
Proof.
  destruct (submit_job_failed Examples.w_server_error Examples.user
              Examples.prompt Examples.σ0
              (HTTPError "500 Server Error: Internal Server Error for url: https://api.example.com"))
    as (l & σ' & j & Hsub & Hj & Hst & Hmsg & _).
  - vm_compute. reflexivity.
  - reflexivity.
  - exists l, σ', j. auto.
Defined.

Lemma submit_job_approved_witness :
  ∃ l σ' j,
    submit_job Examples.w_approved Examples.user Examples.prompt Examples.σ0
    = (inr l, σ')
    ∧ heap σ' !! l = Some j
    ∧ AvatarJob.status j = "completed"
    ∧ AvatarJob.error_message j = PyNone.
Proof.
  apply (submit_job_approved Examples.w_approved Examples.user Examples.prompt
           Examples.σ0
           (ModerationResponse.mk (PyBool true) (PyStr "Content appears safe"))).
  - vm_compute. reflexivity.
  - reflexivity.
Defined.

Lemma submit_job_rejected_witness :
  ∃ l σ' j,
    submit_job Examples.w_rejected Examples.user Examples.prompt Examples.σ0
    = (inr l, σ')
    ∧ heap σ' !! l = Some j
    ∧ AvatarJob.status j = "rejected"
    ∧ AvatarJob.error_message j = PyStr "unsafe".
Proof.
  apply (submit_job_rejected Examples.w_rejected Examples.user Examples.prompt
           Examples.σ0
           (ModerationResponse.mk (PyBool false) (PyStr "unsafe")) "unsafe").
  - vm_compute. reflexivity.
  - reflexivity.
  - reflexivity.
Defined.

Lemma submit_job_terminal_witness :
  ∃ l σ' j,
    submit_job Examples.w_rejected Examples.user Examples.prompt Examples.σ0
    = (inr l, σ')
    ∧ heap σ' !! l = Some j
    ∧ terminal (AvatarJob.status j)
    ∧ (AvatarJob.error_message j ≠ PyNone ↔
       AvatarJob.status j = "failed"
       ∨ (AvatarJob.status j = "rejected"
          ∧ ∃ response,
              (call_moderation_api Examples.w_rejected Examples.prompt
                 Examples.user Examples.σ0).1 = inr response
              ∧ ModerationResponse.reason response ≠ PyNone)).
Proof.
  destruct (submit_job_terminal Examples.w_rejected Examples.user
              Examples.prompt Examples.σ0)
    as (l & σ' & j & Hsub & Hj & Hterm & _ & _ & _ & Hiff).
  - vm_compute. discriminate.
  - intros cls. vm_compute. discriminate.
  - exists l, σ', j. auto.
Defined.

(** C1, as it is stated, fails twice.  A status outside 2xx that is neither
    4xx nor 5xx is not a failure for the program: with a well-formed body the
    job completes.  And the error_message of a failed job is empty when the
    exception has no text, as [requests.exceptions.Timeout()] has none. *)
Lemma submit_job_failure_counterexample :
  (¬ (200 ≤ Response.status_code Examples.answer_300 < 300)%Z
   ∧ ∃ σ' j,
       submit_job Examples.w_300 Examples.user Examples.prompt Examples.σ0
       = (inr 0, σ')
       ∧ heap σ' !! 0 = Some j
       ∧ AvatarJob.status j = "completed"
       ∧ AvatarJob.status j ≠ "failed")
  ∧
  (∃ σ' j,
     submit_job Examples.w_timeout Examples.user Examples.prompt Examples.σ0
     = (inr 0, σ')
     ∧ heap σ' !! 0 = Some j
     ∧ AvatarJob.status j = "failed"
     ∧ AvatarJob.error_message j = PyStr EmptyString).
Proof.
  split.
  - split; [simpl; lia|].
    eexists _, _. split_and!; [vm_compute; reflexivity | reflexivity | done | done].
  - eexists _, _. split_and!; [vm_compute; reflexivity | reflexivity | done | done].
Qed.

(** C4, as it is stated, fails: a rejection whose reason is null leaves the
    job "rejected" with a null error_message. *)
Lemma submit_job_terminal_counterexample :
  ∃ σ' j,
    submit_job Examples.w_rejected_null Examples.user Examples.prompt Examples.σ0
    = (inr 0, σ')
    ∧ heap σ' !! 0 = Some j
    ∧ AvatarJob.status j = "rejected"
    ∧ AvatarJob.error_message j = PyNone
    ∧ ¬ (AvatarJob.error_message j ≠ PyNone ↔
         AvatarJob.status j = "rejected" ∨ AvatarJob.status j = "failed").
Proof.
  eexists _, _. split_and!; [vm_compute; reflexivity | reflexivity | done | done |].
  simpl. intros [_ H]. apply H; [by left | done].
Qed.

(** ** The moderation client *)

(** C5: [call_moderation_api] makes one call of [requests.post], and the
    request it hands over carries no timeout at all, whatever the service,
    the content and the user are: the outcome depends on the outside only
    through the answer to that one request, whose [timeout] is None.  The
    claim that every call carries a bounded timeout does not hold of the
    code. *)
Theorem call_moderation_api_timeout w content user_id σ :
  ∃ req,
    req = moderation_request (self σ) content user_id
    ∧ Request.url req = AvatarProcessingService.moderation_api_url (self σ)
    ∧ Request.timeout req = None
    ∧ ∀ w', requests_post w' req = requests_post w req →
        call_moderation_api w' content user_id σ
        = call_moderation_api w content user_id σ.
Proof.
  exists (moderation_request (self σ) content user_id).
  split_and!; try reflexivity.
  intros w' Hsame. by rewrite !call_moderation_api_unfold, Hsame.
Qed.

(** C6: a JSON object that has the [approved] key and lacks the [reason] key
    is not parsed: [call_moderation_api] raises [KeyError('reason')], where
    the claim expects a result without reason. *)
Theorem call_moderation_api_missing_reason w content user_id σ response d approved :
  requests_post w (moderation_request (self σ) content user_id) = inr response →
  Response.raise_for_status response = inr () →
  Response.json response = inr (PyDict d) →
  dict_lookup d "approved" = Some approved →
  dict_lookup d "reason" = None →
  call_moderation_api w content user_id σ
  = (inl (Raised (KeyError (KStr "reason"))), σ).
Proof.
  intros H1 H2 H3 H4 H5. rewrite call_moderation_api_unfold, H1, H2, H3.
  simpl. by rewrite H4, H5.
Qed.

Lemma call_moderation_api_missing_reason_witness :
  call_moderation_api Examples.w_no_reason Examples.prompt Examples.user Examples.σ0
  = (inl (Raised (KeyError (KStr "reason"))), Examples.σ0)
  ∧ ∃ σ' j,
      submit_job Examples.w_no_reason Examples.user Examples.prompt Examples.σ0
      = (inr 0, σ')
      ∧ heap σ' !! 0 = Some j
      ∧ AvatarJob.status j = "failed"
      ∧ AvatarJob.error_message j = PyStr "'reason'".
Proof.
  split.
  - apply (call_moderation_api_missing_reason Examples.w_no_reason Examples.prompt
             Examples.user Examples.σ0
             (Examples.response 200 "OK" (inr (PyDict [("approved", PyBool false)])))
             [("approved", PyBool false)] (PyBool false)); reflexivity.
  - eexists _, _. split_and!; [vm_compute; reflexivity | reflexivity | done | done].
Defined.

(** ** The job store *)

Lemma get_job_status_unfold job_id σ :
  get_job_status job_id σ
  = (inr (AvatarProcessingService._jobs (self σ) !! job_id), σ).
Proof.
  unfold get_job_status. unfold_M. simpl.
  destruct (AvatarProcessingService._jobs (self σ) !! job_id) as [l|] eqn:Hl.
  - rewrite bool_decide_eq_true_2 by eauto. by rewrite Hl.
  - rewrite bool_decide_eq_false_2; [done|]. by intros [? ?].
Qed.

(** [get_job_status] never raises and leaves the state as it is. *)
Lemma get_job_status_total job_id σ :
  ∃ r, get_job_status job_id σ = (inr r, σ).
Proof. rewrite get_job_status_unfold. eauto. Qed.

(** C7: for an id that is not a key of the job store, [get_job_status]
    returns None and does not raise. *)
Theorem get_job_status_unknown job_id σ :
  AvatarProcessingService._jobs (self σ) !! job_id = None →
  get_job_status job_id σ = (inr None, σ).
Proof. intros H. by rewrite get_job_status_unfold, H. Qed.

Lemma get_job_status_unknown_witness :
  get_job_status (KStr "no-such-job") Examples.σ0 = (inr None, Examples.σ0).
Proof.
  apply (get_job_status_unknown (KStr "no-such-job") Examples.σ0).
  reflexivity.
Defined.

(** What a returning [submit_job] leaves behind. *)
Lemma submit_job_inr w user_id input_data σ l σ' :
  submit_job w user_id input_data σ = (inr l, σ') →
  l = length (heap σ)
  ∧ length (heap σ') = S l
  ∧ AvatarProcessingService._jobs (self σ')
    = <[KUuid (uuid4 w) := l]> (AvatarProcessingService._jobs (self σ))
  ∧ (∀ l', l' < l → heap σ' !! l' = heap σ !! l')
  ∧ ∃ j, heap σ' !! l = Some j
      ∧ AvatarJob.id j = KUuid (uuid4 w)
      ∧ AvatarJob.output_url j = Some (_generate_mock_avatar_url w input_data)
      ∧ terminal (AvatarJob.status j).
Proof.
  intros Hsub.
  apply submit_job_inv in Hsub as (Hself & Hlen & Hold & j & Hj & Hid & Hurl & Hout).
  assert (l = length (heap σ) ∧ terminal (AvatarJob.status j)) as [-> Hterm].
  { unfold terminal.
    destruct (call_moderation_api w input_data user_id σ).1 as [[e|]|response].
    - destruct (isinstance_Exception e).
      + destruct Hout as ([= <-] & -> & _). auto.
      + by destruct Hout as [? _].
    - by destruct Hout as [? _].
    - destruct Hout as [[= <-] Hout].
      destruct (truthy _); destruct Hout as [-> _]; auto. }
  split_and!; try done.
  - by rewrite Hself.
  - eauto 10.
Qed.



(** *** Ids are UUID objects *)

Lemma submit_job_store_ok w user_id input_data σ :
  store_ok σ → store_ok (submit_job w user_id input_data σ).2.
Proof.
  intros Hok.
  destruct (submit_job w user_id input_data σ) as [r σ'] eqn:Hsub.
  apply submit_job_inv in Hsub as (Hself & Hlen & Hold & j & Hj & Hid & _ & _).
  intros k l. simpl. rewrite Hself. unfold stored; simpl.
  destruct (decide (k = KUuid (uuid4 w))) as [->|Hne].
  - rewrite lookup_insert_eq. intros [= <-]. eauto.
  - rewrite lookup_insert_ne by done. intros Hk.
    destruct (Hok k l Hk) as (u & j0 & -> & Hj0 & Hid0).
    exists u, j0. split_and!; try done.
    rewrite Hold; [done|]. by eapply lookup_lt_Some.
Qed.

Lemma reachable_store_ok σ : reachable σ → store_ok σ.
Proof.
  induction 1 as [url token|σ w user_id input_data _ IH|σ job_id _ IH].
  - intros k l. unfold initial; simpl. by rewrite lookup_empty.
  - by apply submit_job_store_ok.
  - by rewrite get_job_status_unfold.
Qed.

(** C10: the id of the job that [submit_job] creates is a UUID object, not
    a string, and it is under that object that the job is stored.  So, in
    every state the program can reach, [get_job_status] finds each job of the
    store under its id and finds nothing under the string that prints that
    id. *)
Theorem get_job_status_str_of_id σ w user_id input_data r σ' :
  reachable σ →
  submit_job w user_id input_data σ = (r, σ') →
  (∃ j, heap σ' !! length (heap σ) = Some j
     ∧ AvatarJob.id j = KUuid (uuid4 w)
     ∧ AvatarProcessingService._jobs (self σ') !! AvatarJob.id j
       = Some (length (heap σ))
     ∧ get_job_status (KStr (str_uuid (uuid4 w))) σ' = (inr None, σ'))
  ∧ ∀ k l,
      AvatarProcessingService._jobs (self σ') !! k = Some l →
      ∃ u j, k = KUuid u
        ∧ heap σ' !! l = Some j
        ∧ AvatarJob.id j = KUuid u
        ∧ get_job_status (KUuid u) σ' = (inr (Some l), σ')
        ∧ get_job_status (KStr (str_uuid u)) σ' = (inr None, σ').
Proof.
  intros Hreach Hsub.
  pose proof (submit_job_store_ok w user_id input_data σ
                (reachable_store_ok _ Hreach)) as Hok.
  rewrite Hsub in Hok. cbn [snd] in Hok.
  assert (∀ s, get_job_status (KStr s) σ' = (inr None, σ')) as Hstr.
  { intros s. rewrite get_job_status_unfold.
    destruct (AvatarProcessingService._jobs (self σ') !! KStr s) as [l0|] eqn:Hs;
      [|done].
    by destruct (Hok _ _ Hs) as (u & j0 & ? & _). }
  split.
  - apply submit_job_inv in Hsub as (Hself & _ & _ & j & Hj & Hid & _ & _).
    exists j. split_and!; try done.
    rewrite Hid, Hself. unfold stored; simpl. by rewrite lookup_insert_eq.
  - intros k l0 Hk. destruct (Hok k l0 Hk) as (u & j0 & -> & Hj0 & Hid0).
    exists u, j0. split_and!; try done.
    by rewrite get_job_status_unfold, Hk.
Qed.

Lemma get_job_status_str_of_id_witness :
  AvatarProcessingService._jobs (self Examples.σ1) !! KUuid 7 = Some 0
  ∧ get_job_status (KUuid 7) Examples.σ1 = (inr (Some 0), Examples.σ1)
  ∧ get_job_status (KStr "00000000-0000-0000-0000-000000000007") Examples.σ1
    = (inr None, Examples.σ1).
Proof.
  destruct (get_job_status_str_of_id Examples.σ0 Examples.w_approved Examples.user
              Examples.prompt (inr 0) Examples.σ1)
    as [(j & Hj & Hid & Hstored & Hstr) _].
  - apply reachable_initial.
  - vm_compute. reflexivity.
  - split_and!.
    + vm_compute. reflexivity.
    + vm_compute. reflexivity.
    + exact Hstr.
Defined.

(** ** Two submissions of the same prompt *)

Lemma _generate_mock_avatar_url_eq w1 w2 prompt :
  hash w2 prompt = hash w1 prompt →
  _generate_mock_avatar_url w1 prompt = _generate_mock_avatar_url w2 prompt
  ↔ time_time w1 = time_time w2.
Proof.
  intros Hhash. unfold _generate_mock_avatar_url. rewrite Hhash. split.
  - intros H. do 3 apply String.app_inj in H. by apply append_inj_r in H.
  - by intros ->.
Qed.

(** C8: two submissions of the same input_data by the same user_id, one
    after the other in one process (the same hash of the prompt), give two
    job objects.  Their ids differ exactly when the two draws of uuid4
    differ, and their output_url values differ exactly when the two readings
    of the clock differ: with one and the same reading of [time.time()] the
    two jobs have the same output_url, which the claim excludes. *)
Theorem submit_job_twice w1 w2 user_id input_data σ l1 σ1 l2 σ2 :
  submit_job w1 user_id input_data σ = (inr l1, σ1) →
  submit_job w2 user_id input_data σ1 = (inr l2, σ2) →
  hash w2 input_data = hash w1 input_data →
  ∃ j1 j2,
    heap σ2 !! l1 = Some j1
    ∧ heap σ2 !! l2 = Some j2
    ∧ l1 ≠ l2
    ∧ (AvatarJob.id j1 = AvatarJob.id j2 ↔ uuid4 w1 = uuid4 w2)
    ∧ (AvatarJob.output_url j1 = AvatarJob.output_url j2
       ↔ time_time w1 = time_time w2).
Proof.
  intros Hsub1 Hsub2 Hhash.
  apply submit_job_inr in Hsub1
    as (-> & Hlen1 & _ & _ & j1 & Hj1 & Hid1 & Hurl1 & _).
  apply submit_job_inr in Hsub2
    as (-> & _ & _ & Hold & j2 & Hj2 & Hid2 & Hurl2 & _).
  exists j1, j2. split_and!.
  - rewrite Hold by lia. done.
  - done.
  - lia.
  - rewrite Hid1, Hid2. split; [by intros [= ->] | by intros ->].
  - rewrite Hurl1, Hurl2.
    etrans; [|apply (_generate_mock_avatar_url_eq w1 w2 input_data Hhash)].
    split; [by intros H; apply (inj Some) in H | by intros ->].
Qed.

Lemma submit_job_twice_witness :
  ∃ j1 j2,
    heap Examples.σ2 !! 0 = Some j1
    ∧ heap Examples.σ2 !! 1 = Some j2
    ∧ AvatarJob.id j1 ≠ AvatarJob.id j2
    ∧ AvatarJob.output_url j1 = AvatarJob.output_url j2
    ∧ AvatarJob.output_url j1
      = Some "https://avatars.example.com/38_1700000000.25.png".
Proof.
  destruct (submit_job_twice Examples.w_approved Examples.w_approved_again
              Examples.user Examples.prompt Examples.σ0 0 Examples.σ1 1 Examples.σ2)
    as (j1 & j2 & Hj1 & Hj2 & _ & Hid & Hurl).
  - vm_compute. reflexivity.
  - vm_compute. reflexivity.
  - reflexivity.
  - exists j1, j2. split_and!; try done.
    + rewrite Hid. vm_compute. discriminate.
    + by apply Hurl.
    + vm_compute in Hj1. by injection Hj1 as <-.
Defined.

(** ** Further properties of the service *)

(** The record of the new job, field by field: only [status] and
    [error_message] depend on the moderation call. *)
Lemma submit_job_new_record w user_id input_data σ r σ' :
  submit_job w user_id input_data σ = (r, σ') →
  ∃ s m,
    heap σ' !! length (heap σ)
    = Some (AvatarJob.mk (KUuid (uuid4 w)) user_id s input_data
              (Some (_generate_mock_avatar_url w input_data))
              (Some (datetime_now w)) m).
Proof.
  rewrite submit_job_unfold. cbv zeta.
  pose proof (stored_lookup_new w user_id input_data σ) as Hnew.
  destruct (call_moderation_api w input_data user_id σ).1 as [[e|]|response].
  - destruct (isinstance_Exception e); intros [= <- <-].
    + erewrite finished_lookup by done. by eexists _, _.
    + rewrite Hnew. by eexists _, _.
  - intros [= <- <-]. rewrite Hnew. by eexists _, _.
  - destruct (truthy _); intros [= <- <-];
      (erewrite finished_lookup by done); by eexists _, _.
Qed.

Lemma after_call_length σ c :
  length (heap (after_call σ c))
  = length (heap σ) + length (drawn [c]).
Proof.
  destruct c as [w user_id input_data|job_id]; simpl.
  - destruct (submit_job w user_id input_data σ) as [r σ'] eqn:Hsub.
    apply submit_job_inv in Hsub as (_ & Hlen & _). cbn [snd].
    rewrite Hlen. simpl. lia.
  - rewrite get_job_status_unfold. simpl. lia.
Qed.

Lemma after_call_lookup_old σ c l :
  l < length (heap σ) → heap (after_call σ c) !! l = heap σ !! l.
Proof.
  intros Hl. destruct c as [w user_id input_data|job_id]; simpl.
  - destruct (submit_job w user_id input_data σ) as [r σ'] eqn:Hsub.
    apply submit_job_inv in Hsub as (_ & _ & Hold & _). cbn [snd]. by apply Hold.
  - by rewrite get_job_status_unfold.
Qed.

Lemma after_call_jobs_other σ c k :
  (∀ u, u ∈ drawn [c] → KUuid u ≠ k) →
  AvatarProcessingService._jobs (self (after_call σ c)) !! k
  = AvatarProcessingService._jobs (self σ) !! k.
Proof.
  intros Hk. destruct c as [w user_id input_data|job_id]; simpl.
  - destruct (submit_job w user_id input_data σ) as [r σ'] eqn:Hsub.
    apply submit_job_inv in Hsub as (Hself & _). cbn [snd].
    rewrite Hself. unfold stored; simpl.
    apply lookup_insert_ne. apply Hk. simpl. set_solver.
  - by rewrite get_job_status_unfold.
Qed.

Lemma drawn_cons c cs : drawn (c :: cs) = (drawn [c] ++ drawn cs)%list.
Proof. unfold drawn. simpl. by destruct c. Qed.

(** X1: a job that [submit_job] returns records the request as it was
    made: the user_id and the input_data it was given, the uuid drawn as
    its id, the clock reading of [datetime.now()] as created_at, and the
    generated mock URL as output_url. *)
Theorem submit_job_record w user_id input_data σ l σ' :
  submit_job w user_id input_data σ = (inr l, σ') →
  ∃ j, heap σ' !! l = Some j
    ∧ AvatarJob.id j = KUuid (uuid4 w)
    ∧ AvatarJob.user_id j = user_id
    ∧ AvatarJob.input_data j = input_data
    ∧ AvatarJob.created_at j = Some (datetime_now w)
    ∧ AvatarJob.output_url j = Some (_generate_mock_avatar_url w input_data).
Proof.
  intros Hsub.
  destruct (submit_job_new_record _ _ _ _ _ _ Hsub) as (s & m & Hj).
  apply submit_job_inr in Hsub as (-> & _).
  eexists. split; [exact Hj|]. done.
Qed.

Lemma submit_job_record_witness :
  ∃ j, heap Examples.σ1 !! 0 = Some j
    ∧ AvatarJob.id j = KUuid 7
    ∧ AvatarJob.user_id j = "user123"
    ∧ AvatarJob.input_data j = "A friendly robot avatar with blue eyes"
    ∧ AvatarJob.created_at j = Some 0%Z
    ∧ AvatarJob.output_url j
      = Some "https://avatars.example.com/38_1700000000.25.png".
Proof.
  apply (submit_job_record Examples.w_approved Examples.user Examples.prompt
           Examples.σ0 0 Examples.σ1).
  vm_compute. reflexivity.
Defined.

(** X2: when an exception that is not an [Exception] (KeyboardInterrupt,
    SystemExit) crosses the moderation call, [submit_job] lets it through to
    its caller; the job it had already stored stays in the store, found
    under its id, with status "pending" and a null error_message. *)
Theorem submit_job_interrupted w user_id input_data σ cls :
  call_moderation_api w input_data user_id σ = (inl (Raised (Interrupt cls)), σ) →
  ∃ σ' j,
    submit_job w user_id input_data σ = (inl (Raised (Interrupt cls)), σ')
    ∧ heap σ' !! length (heap σ) = Some j
    ∧ AvatarJob.status j = "pending"
    ∧ AvatarJob.error_message j = PyNone
    ∧ get_job_status (AvatarJob.id j) σ' = (inr (Some (length (heap σ))), σ').
Proof.
  intros Hcall.
  destruct (submit_job w user_id input_data σ) as [r σ'] eqn:Hsub.
  apply submit_job_inv in Hsub as (Hself & _ & _ & j & Hj & Hid & _ & Hout).
  rewrite Hcall in Hout. simpl in Hout. destruct Hout as (-> & Hst & Hmsg).
  exists σ', j. split_and!; try done.
  rewrite get_job_status_unfold, Hid, Hself. unfold stored; simpl.
  by rewrite lookup_insert_eq.
Qed.

Lemma submit_job_interrupted_witness :
  ∃ σ' j,
    submit_job Runs.w_interrupt Examples.user Examples.prompt Examples.σ0
    = (inl (Raised (Interrupt "KeyboardInterrupt")), σ')
    ∧ heap σ' !! 0 = Some j
    ∧ AvatarJob.status j = "pending"
    ∧ AvatarJob.error_message j = PyNone
    ∧ get_job_status (AvatarJob.id j) σ' = (inr (Some 0), σ').
Proof.
  apply (submit_job_interrupted Runs.w_interrupt Examples.user Examples.prompt
           Examples.σ0 "KeyboardInterrupt").
  vm_compute. reflexivity.
Defined.

(** X3: the branch of [submit_job] is chosen by the truth value of the
    [approved] field, not by its being the boolean true.  Whatever JSON
    value the field holds (null, a boolean, an integer, a float, a string,
    an array or an object), the job is "completed" exactly when the value is
    truthy and "rejected" exactly when it is falsy; so the string "false",
    which is not empty, completes the job, as the float 0.5 does, and the
    float 0.0 rejects it. *)
Theorem submit_job_truthiness w user_id input_data σ response :
  call_moderation_api w input_data user_id σ = (inr response, σ) →
  ∃ l σ' j,
    submit_job w user_id input_data σ = (inr l, σ')
    ∧ heap σ' !! l = Some j
    ∧ (AvatarJob.status j = "completed"
       ↔ truthy (ModerationResponse.is_approved response) = true)
    ∧ (AvatarJob.status j = "rejected"
       ↔ truthy (ModerationResponse.is_approved response) = false)
    ∧ (truthy (ModerationResponse.is_approved response) = false →
       AvatarJob.error_message j = ModerationResponse.reason response).
Proof.
  intros Hcall.
  destruct (submit_job w user_id input_data σ) as [r σ'] eqn:Hsub.
  apply submit_job_inv in Hsub as (_ & _ & _ & j & Hj & _ & _ & Hout).
  rewrite Hcall in Hout. simpl in Hout. destruct Hout as [-> Hout].
  exists (length (heap σ)), σ', j.
  destruct (truthy (ModerationResponse.is_approved response));
    destruct Hout as [Hst Hmsg]; rewrite Hst; split_and!; done.
Qed.

Lemma submit_job_truthiness_witness :
  (∃ l σ' j,
     submit_job Runs.w_string_false Examples.user Examples.prompt Examples.σ0
     = (inr l, σ')
     ∧ heap σ' !! l = Some j
     ∧ AvatarJob.status j = "completed")
  ∧ (∃ l σ' j,
       submit_job Runs.w_float_half Examples.user Examples.prompt Examples.σ0
       = (inr l, σ')
       ∧ heap σ' !! l = Some j
       ∧ AvatarJob.status j = "completed")
  ∧ (∃ l σ' j,
       submit_job Runs.w_float_zero Examples.user Examples.prompt Examples.σ0
       = (inr l, σ')
       ∧ heap σ' !! l = Some j
       ∧ AvatarJob.status j = "rejected"
       ∧ AvatarJob.error_message j = PyStr "unsafe").
Proof.
  split_and!.
  - destruct (submit_job_truthiness Runs.w_string_false Examples.user
                Examples.prompt Examples.σ0
                (ModerationResponse.mk (PyStr "false") (PyStr "unsafe")))
      as (l & σ' & j & Hsub & Hj & Hcompleted & _).
    + vm_compute. reflexivity.
    + exists l, σ', j. split_and!; try done. by apply Hcompleted.
  - destruct (submit_job_truthiness Runs.w_float_half Examples.user
                Examples.prompt Examples.σ0
                (ModerationResponse.mk
                   (PyFloat (SpecFloat.S754_finite false 4503599627370496 (-53)))
                   (PyStr "unsafe")))
      as (l & σ' & j & Hsub & Hj & Hcompleted & _).
    + vm_compute. reflexivity.
    + exists l, σ', j. split_and!; try done. by apply Hcompleted.
  - destruct (submit_job_truthiness Runs.w_float_zero Examples.user
                Examples.prompt Examples.σ0
                (ModerationResponse.mk (PyFloat (SpecFloat.S754_zero false))
                   (PyStr "unsafe")))
      as (l & σ' & j & Hsub & Hj & _ & Hrejected & Hmsg).
    + vm_compute. reflexivity.
    + exists l, σ', j. split_and!; try done.
      * by apply Hrejected.
      * by apply Hmsg.
Defined.

(** The truth value of a float: the two zeros are false, and every other
    float, an infinity and a NaN included, is true. *)
Lemma truthy_float x :
  truthy (PyFloat x) = false ↔ ∃ sign, x = SpecFloat.S754_zero sign.
Proof.
  destruct x; simpl; split; try done; eauto; by intros [? ?].
Qed.

(** X16: the request carries no timeout, so nothing bounds the call of
    [requests.post]; when it never returns, [submit_job] never returns
    either: no handler runs, and the job it had already stored stays in the
    store, bound to its id, with status "pending" and a null
    error_message. *)
Theorem submit_job_never_returns w user_id input_data σ :
  requests_post w (moderation_request (self σ) input_data user_id)
  = inl NeverReturns →
  Request.timeout (moderation_request (self σ) input_data user_id) = None
  ∧ ∃ σ' j,
      submit_job w user_id input_data σ = (inl NeverReturns, σ')
      ∧ heap σ' !! length (heap σ) = Some j
      ∧ AvatarJob.status j = "pending"
      ∧ AvatarJob.error_message j = PyNone
      ∧ AvatarProcessingService._jobs (self σ') !! AvatarJob.id j
        = Some (length (heap σ)).
Proof.
  intros Hpost. split; [done|].
  destruct (submit_job w user_id input_data σ) as [r σ'] eqn:Hsub.
  apply submit_job_inv in Hsub as (Hself & _ & _ & j & Hj & Hid & _ & Hout).
  rewrite call_moderation_api_unfold, Hpost in Hout. simpl in Hout.
  destruct Hout as (-> & Hst & Hmsg).
  exists σ', j. split_and!; try done.
  rewrite Hid, Hself. unfold stored; simpl. by rewrite lookup_insert_eq.
Qed.

Lemma submit_job_never_returns_witness :
  ∃ σ' j,
    submit_job Runs.w_silent Examples.user Examples.prompt Examples.σ0
    = (inl NeverReturns, σ')
    ∧ heap σ' !! 0 = Some j
    ∧ AvatarJob.status j = "pending"
    ∧ AvatarJob.error_message j = PyNone.
Proof.
  destruct (submit_job_never_returns Runs.w_silent Examples.user Examples.prompt
              Examples.σ0) as [_ (σ' & j & Hsub & Hj & Hst & Hmsg & _)].
  - reflexivity.
  - exists σ', j. auto.
Defined.

(** *** Sequences of calls *)

Lemma after_calls_length σ cs :
  length (heap (after_calls σ cs)) = length (heap σ) + length (drawn cs).
Proof.
  revert σ. induction cs as [|c cs IH]; intros σ.
  - simpl. lia.
  - unfold after_calls. simpl foldl. fold (after_calls (after_call σ c) cs).
    rewrite IH, after_call_length, (drawn_cons c cs), length_app. lia.
Qed.

Lemma after_calls_lookup_old σ cs l :
  l < length (heap σ) → heap (after_calls σ cs) !! l = heap σ !! l.
Proof.
  revert σ. induction cs as [|c cs IH]; intros σ Hl; [done|].
  unfold after_calls. simpl foldl. fold (after_calls (after_call σ c) cs).
  rewrite IH by (rewrite after_call_length; lia).
  by apply after_call_lookup_old.
Qed.

Lemma after_calls_jobs_other σ cs k :
  (∀ u, u ∈ drawn cs → KUuid u ≠ k) →
  AvatarProcessingService._jobs (self (after_calls σ cs)) !! k
  = AvatarProcessingService._jobs (self σ) !! k.
Proof.
  revert σ. induction cs as [|c cs IH]; intros σ Hk; [done|].
  unfold after_calls. simpl foldl. fold (after_calls (after_call σ c) cs).
  rewrite (drawn_cons c cs) in Hk.
  rewrite IH by (intros u Hu; apply Hk; set_solver).
  apply after_call_jobs_other. intros u Hu. apply Hk. set_solver.
Qed.

Lemma after_calls_reachable σ cs : reachable σ → reachable (after_calls σ cs).
Proof.
  revert σ. induction cs as [|c cs IH]; intros σ Hσ; [done|].
  unfold after_calls. simpl foldl. fold (after_calls (after_call σ c) cs).
  apply IH. destruct c; simpl; by constructor.
Qed.

(** X4: a job record is written during the [submit_job] call that creates
    it and never after: whatever calls of [submit_job] and [get_job_status]
    follow, with whatever outcomes, each job already in the heap is left as
    it is, its terminal status and its error_message included. *)
Theorem job_never_modified σ cs l j :
  heap σ !! l = Some j →
  heap (after_calls σ cs) !! l = Some j.
Proof.
  intros Hj. rewrite after_calls_lookup_old; [done|].
  by eapply lookup_lt_Some.
Qed.

Lemma job_never_modified_witness :
  heap (after_calls Examples.σ1 Runs.later_calls) !! 0 = Some Runs.first_job.
Proof.
  apply (job_never_modified Examples.σ1 Runs.later_calls 0 Runs.first_job).
  vm_compute. reflexivity.
Defined.

(** X5: a stored job stays retrievable.  If an id is bound in the store and
    none of the later submissions draws that same uuid, then after any
    sequence of calls [get_job_status] on the id still returns the same job
    object, and the record is the one that was there. *)
Theorem get_job_status_after_calls σ cs k l j :
  AvatarProcessingService._jobs (self σ) !! k = Some l →
  heap σ !! l = Some j →
  (∀ u, u ∈ drawn cs → KUuid u ≠ k) →
  get_job_status k (after_calls σ cs) = (inr (Some l), after_calls σ cs)
  ∧ heap (after_calls σ cs) !! l = Some j.
Proof.
  intros Hk Hj Hfresh. split.
  - by rewrite get_job_status_unfold, after_calls_jobs_other, Hk.
  - rewrite after_calls_lookup_old; [done|]. by eapply lookup_lt_Some.
Qed.

Lemma get_job_status_after_calls_witness :
  get_job_status (KUuid 7) (after_calls Examples.σ1 Runs.later_calls)
  = (inr (Some 0), after_calls Examples.σ1 Runs.later_calls)
  ∧ heap (after_calls Examples.σ1 Runs.later_calls) !! 0 = Some Runs.first_job.
Proof.
  apply (get_job_status_after_calls Examples.σ1 Runs.later_calls (KUuid 7) 0
           Runs.first_job).
  - vm_compute. reflexivity.
  - vm_compute. reflexivity.
  - intros u Hu. vm_compute in Hu.
    apply elem_of_cons in Hu as [->|Hu]; [discriminate|].
    apply list_elem_of_singleton in Hu as ->. discriminate.
Defined.

(** X6: every call of [submit_job] creates exactly one job record, whether
    the moderation call succeeds, fails or is interrupted, and
    [get_job_status] creates none: after a sequence of calls the heap holds
    as many more records as there were submissions.  The store gains at most
    that many keys. *)
Theorem after_calls_count σ cs :
  length (heap (after_calls σ cs)) = length (heap σ) + length (drawn cs)
  ∧ (size (AvatarProcessingService._jobs (self (after_calls σ cs)))
     ≤ size (AvatarProcessingService._jobs (self σ)) + length (drawn cs))%nat.
Proof.
  split; [apply after_calls_length|].
  revert σ. induction cs as [|c cs IH]; intros σ.
  - simpl. lia.
  - unfold after_calls. simpl foldl. fold (after_calls (after_call σ c) cs).
    etrans; [apply IH|]. rewrite (drawn_cons c cs), length_app.
    destruct c as [w user_id input_data|job_id]; simpl.
    + destruct (submit_job w user_id input_data σ) as [r σ'] eqn:Hsub.
      apply submit_job_inv in Hsub as (Hself & _). cbn [snd].
      rewrite Hself. unfold stored; simpl. rewrite map_size_insert.
      destruct (_ !! _); simpl; lia.
    + rewrite get_job_status_unfold. simpl. lia.
Qed.

(** *** Invariants of the reachable states *)

Lemma append_assoc (s t u : string) : (s +:+ t) +:+ u = s +:+ (t +:+ u).
Proof.
  induction s as [|a s IH]; [done|].
  rewrite !append_cons. by rewrite IH.
Qed.

Lemma submit_job_new_job_ok w user_id input_data σ r σ' j :
  submit_job w user_id input_data σ = (r, σ') →
  heap σ' !! length (heap σ) = Some j →
  job_ok j.
Proof.
  intros Hsub Hj.
  destruct (submit_job_new_record _ _ _ _ _ _ Hsub) as (s & m & Hrec).
  apply submit_job_inv in Hsub as (_ & _ & _ & j' & Hj' & _ & _ & Hout).
  assert (j' = j) as -> by congruence.
  assert (j = AvatarJob.mk (KUuid (uuid4 w)) user_id s input_data
                (Some (_generate_mock_avatar_url w input_data))
                (Some (datetime_now w)) m) as Hfields by congruence.
  unfold job_ok. split_and!.
  - rewrite Hfields. simpl. eauto.
  - rewrite Hfields. simpl. eauto.
  - rewrite Hfields. simpl. unfold _generate_mock_avatar_url.
    exists (pretty (hash w input_data) +:+ "_" +:+ time_time w).
    by rewrite !append_assoc.
  - destruct (call_moderation_api w input_data user_id σ).1 as [[e|]|response].
    + destruct (isinstance_Exception e); destruct Hout as (_ & Hst & Hmsg); eauto 10.
    + destruct Hout as (_ & Hst & Hmsg); eauto 10.
    + destruct Hout as [_ Hout].
      destruct (truthy _); destruct Hout as [Hst Hmsg]; eauto 10.
Qed.

Lemma reachable_heap_ok σ :
  reachable σ → ∀ l j, heap σ !! l = Some j → job_ok j.
Proof.
  induction 1 as [url token|σ w user_id input_data _ IH|σ job_id _ IH].
  - intros l j. unfold initial; simpl. by rewrite lookup_nil.
  - intros l j.
    destruct (submit_job w user_id input_data σ) as [r σ'] eqn:Hsub. cbn [snd].
    pose proof Hsub as Hinv.
    apply submit_job_inv in Hinv as (_ & Hlen & Hold & _).
    destruct (decide (l < length (heap σ))) as [Hlt|Hge].
    + rewrite Hold by done. apply IH.
    + intros Hj. pose proof (lookup_lt_Some _ _ _ Hj) as Hl.
      assert (l = length (heap σ)) as -> by lia.
      by eapply submit_job_new_job_ok.
  - by rewrite get_job_status_unfold.
Qed.

(** X7: in every state the program can reach, every job record ever
    created, stored or not, has a UUID object as id, a creation time, an
    output_url of the form https://avatars.example.com/<name>.png, and a
    status among "pending", "completed", "rejected" and "failed"; its
    error_message is null while "pending" or "completed" and a string when
    "failed". *)
Theorem reachable_jobs_ok σ l j :
  reachable σ → heap σ !! l = Some j → job_ok j.
Proof. intros Hσ. by apply reachable_heap_ok. Qed.

Lemma reachable_jobs_ok_witness :
  ∃ j, heap Examples.σ2 !! 1 = Some j ∧ job_ok j.
Proof.
  eexists. split; [vm_compute; reflexivity|].
  eapply (reachable_jobs_ok Examples.σ2 1).
  - unfold Examples.σ2, Examples.σ1.
    apply reachable_submit_job, reachable_submit_job, reachable_initial.
  - vm_compute. reflexivity.
Defined.

(** X8: when [uuid.uuid4()] draws an id that is already a key of the store,
    the assignment [self._jobs[_job.id] = _job] replaces the binding: the
    store keeps its size, [get_job_status] on that id returns the new job,
    and the job that was bound to it, though still unchanged in memory, is no
    longer returned by [get_job_status] for any id. *)
Theorem submit_job_uuid_collision σ w user_id input_data r σ' l0 :
  reachable σ →
  AvatarProcessingService._jobs (self σ) !! KUuid (uuid4 w) = Some l0 →
  submit_job w user_id input_data σ = (r, σ') →
  get_job_status (KUuid (uuid4 w)) σ' = (inr (Some (length (heap σ))), σ')
  ∧ l0 ≠ length (heap σ)
  ∧ size (AvatarProcessingService._jobs (self σ'))
    = size (AvatarProcessingService._jobs (self σ))
  ∧ heap σ' !! l0 = heap σ !! l0
  ∧ is_Some (heap σ !! l0)
  ∧ ∀ k, get_job_status k σ' ≠ (inr (Some l0), σ').
Proof.
  intros Hσ Hbound Hsub.
  destruct (reachable_store_ok σ Hσ _ _ Hbound) as (u & j0 & [= <-] & Hj0 & Hid0).
  pose proof (lookup_lt_Some _ _ _ Hj0) as Hl0.
  pose proof (submit_job_store_ok w user_id input_data σ
                (reachable_store_ok _ Hσ)) as Hok'.
  rewrite Hsub in Hok'. cbn [snd] in Hok'.
  apply submit_job_inv in Hsub as (Hself & _ & Hold & j & Hj & Hid & _ & _).
  assert (AvatarProcessingService._jobs (self σ')
          = <[KUuid (uuid4 w) := length (heap σ)]>
              (AvatarProcessingService._jobs (self σ))) as Hjobs
    by (by rewrite Hself).
  split_and!.
  - by rewrite get_job_status_unfold, Hjobs, lookup_insert_eq.
  - lia.
  - rewrite Hjobs. apply map_size_insert_Some. eauto.
  - by apply Hold.
  - eauto.
  - intros k. rewrite get_job_status_unfold. intros [= Hk].
    destruct (Hok' k l0 Hk) as (u' & j' & -> & Hj' & Hid').
    rewrite Hold, Hj0 in Hj' by done. injection Hj' as <-.
    assert (u' = uuid4 w) as -> by congruence.
    rewrite Hjobs, lookup_insert_eq in Hk. injection Hk as Hk. lia.
Qed.

Lemma submit_job_uuid_collision_witness :
  get_job_status (KUuid 7) Examples.σ1 = (inr (Some 0), Examples.σ1)
  ∧ get_job_status (KUuid 7) Runs.σ_collision = (inr (Some 1), Runs.σ_collision)
  ∧ ∀ k, get_job_status k Runs.σ_collision ≠ (inr (Some 0), Runs.σ_collision).
Proof.
  destruct (submit_job_uuid_collision Examples.σ1 Examples.w_rejected
              Examples.user "Another prompt" (inr 1) Runs.σ_collision 0)
    as (Hnew & _ & _ & _ & _ & Hlost).
  - unfold Examples.σ1. apply reachable_submit_job, reachable_initial.
  - vm_compute. reflexivity.
  - vm_compute. reflexivity.
  - split_and!; [vm_compute; reflexivity | exact Hnew | exact Hlost].
Defined.

(** X9: in every state the program can reach, the store lists no job
    twice: two ids bound to the same job object are the same id, and that id
    is the one written in the job. *)
Theorem reachable_store_injective σ k1 k2 l :
  reachable σ →
  AvatarProcessingService._jobs (self σ) !! k1 = Some l →
  AvatarProcessingService._jobs (self σ) !! k2 = Some l →
  k1 = k2 ∧ ∃ j, heap σ !! l = Some j ∧ AvatarJob.id j = k1.
Proof.
  intros Hσ H1 H2.
  destruct (reachable_store_ok σ Hσ _ _ H1) as (u1 & j1 & -> & Hj1 & Hid1).
  destruct (reachable_store_ok σ Hσ _ _ H2) as (u2 & j2 & -> & Hj2 & Hid2).
  split; [congruence|]. eauto.
Qed.

Lemma reachable_store_injective_witness :
  KUuid 8 = KUuid 8
  ∧ ∃ j, heap Examples.σ2 !! 1 = Some j ∧ AvatarJob.id j = KUuid 8.
Proof.
  apply (reachable_store_injective Examples.σ2 (KUuid 8) (KUuid 8) 1).
  - unfold Examples.σ2, Examples.σ1.
    apply reachable_submit_job, reachable_submit_job, reachable_initial.
  - vm_compute. reflexivity.
  - vm_compute. reflexivity.
Defined.

(** *** The moderation call *)




(** X11: [call_moderation_api] neither reads nor writes the job store: it
    leaves the state as it found it, and its outcome is the same in any two
    states whose service has the same moderation_api_url and api_token. *)
Theorem call_moderation_api_reads_config_only w content user_id σ1 σ2 :
  AvatarProcessingService.moderation_api_url (self σ1)
    = AvatarProcessingService.moderation_api_url (self σ2) →
  AvatarProcessingService.api_token (self σ1)
    = AvatarProcessingService.api_token (self σ2) →
  call_moderation_api w content user_id σ1
  = ((call_moderation_api w content user_id σ2).1, σ1).
Proof.
  intros Hurl Htoken.
  rewrite (surjective_pairing (call_moderation_api w content user_id σ1)).
  rewrite call_moderation_api_state. f_equal.
  by apply call_moderation_api_self.
Qed.

Lemma call_moderation_api_reads_config_only_witness :
  call_moderation_api Examples.w_rejected Examples.prompt Examples.user Examples.σ2
  = ((call_moderation_api Examples.w_rejected Examples.prompt Examples.user
        Examples.σ0).1, Examples.σ2).
Proof.
  apply (call_moderation_api_reads_config_only Examples.w_rejected Examples.prompt
           Examples.user Examples.σ2 Examples.σ0); reflexivity.
Defined.

(** X12: an answer with a 4xx or 5xx status fails the job whatever its body
    says, since the status is checked before the body is read; the
    error_message is the text of the HTTPError, "<status> Client Error:
    <reason> for url: <url>" below 500 and "<status> Server Error: <reason>
    for url: <url>" from 500 on. *)
Theorem submit_job_http_error_message w user_id input_data σ response :
  requests_post w (moderation_request (self σ) input_data user_id) = inr response →
  (400 ≤ Response.status_code response < 600)%Z →
  ∃ l σ' j,
    submit_job w user_id input_data σ = (inr l, σ')
    ∧ heap σ' !! l = Some j
    ∧ AvatarJob.status j = "failed"
    ∧ AvatarJob.error_message j
      = PyStr (pretty (Response.status_code response)
               +:+ (if bool_decide (Response.status_code response < 500)%Z
                    then " Client Error: " else " Server Error: ")
               +:+ Response.reason response +:+ " for url: "
               +:+ Response.url response).
Proof.
  intros Hpost Hcode.
  destruct (submit_job w user_id input_data σ) as [r σ'] eqn:Hsub.
  apply submit_job_inv in Hsub as (_ & _ & _ & j & Hj & _ & _ & Hout).
  rewrite call_moderation_api_unfold, Hpost in Hout. simpl in Hout.
  unfold Response.raise_for_status in Hout.
  exists (length (heap σ)), σ', j.
  repeat case_bool_decide; try lia; simpl in Hout;
    destruct Hout as (-> & Hst & Hmsg); rewrite Hmsg; split_and!; done.
Qed.

Lemma submit_job_http_error_message_witness :
  ∃ l σ' j,
    submit_job Runs.w_404 Examples.user Examples.prompt Examples.σ0 = (inr l, σ')
    ∧ heap σ' !! l = Some j
    ∧ AvatarJob.status j = "failed"
    ∧ AvatarJob.error_message j
      = PyStr "404 Client Error: Not Found for url: https://api.example.com".
Proof.
  apply (submit_job_http_error_message Runs.w_404 Examples.user Examples.prompt
           Examples.σ0 Runs.answer_404).
  - reflexivity.
  - simpl. lia.
Defined.

(** *** The example program *)


(** *** The mock avatar URL *)

Lemma pretty_N_go_no_underscore x s :
  occurs "_" s = false → occurs "_" (pretty_N_go x s) = false.
Proof.
  revert s. induction (N.lt_wf_0 x) as [x _ IH]; intros s Hs.
  destruct (decide (x = 0)%N) as [->|Hx].
  - by rewrite pretty_N_go_0.
  - rewrite pretty_N_go_step by lia. apply IH.
    + apply N.div_lt; lia.
    + simpl. rewrite Hs. unfold pretty_N_char. by repeat case_match.
Qed.

Lemma pretty_Z_no_underscore (z : Z) : occurs "_" (pretty z) = false.
Proof.
  unfold pretty, pretty_Z. destruct z as [|p|p]; [done|..].
  - unfold pretty, pretty_positive, pretty, pretty_N. case_decide; [done|].
    by apply pretty_N_go_no_underscore.
  - rewrite append_cons, append_nil_l. simpl.
    unfold pretty, pretty_positive, pretty, pretty_N. case_decide; [done|].
    by apply pretty_N_go_no_underscore.
Qed.

(** Two texts cut at their first underscore are equal part by part. *)
Lemma append_underscore_inj (p1 p2 t1 t2 : string) :
  occurs "_" p1 = false → occurs "_" p2 = false →
  p1 +:+ "_" +:+ t1 = p2 +:+ "_" +:+ t2 → p1 = p2 ∧ t1 = t2.
Proof.
  revert p2. induction p1 as [|a p1 IH]; intros [|b p2] H1 H2 H.
  - rewrite !append_nil_l, !append_cons, !append_nil_l in H. by injection H.
  - rewrite append_nil_l, !append_cons, append_nil_l in H.
    injection H as <- _. simpl in H2. done.
  - rewrite append_nil_l, !append_cons, append_nil_l in H.
    injection H as -> _. simpl in H1. done.
  - rewrite !(append_cons _ _ (_ +:+ _)) in H. injection H as -> H.
    simpl in H1, H2.
    destruct (Ascii.eqb b "_"); [done|].
    destruct (IH p2 H1 H2 H) as [-> ->]. done.
Qed.

(** X14: the mock URLs of two submissions are the same exactly when the two
    prompts have the same hash and the two readings of [time.time()] are the
    same.  The prompt enters the URL through its hash only, so two different
    prompts with one hash, submitted at one clock reading, share a URL. *)
Theorem _generate_mock_avatar_url_collision w1 w2 prompt1 prompt2 :
  _generate_mock_avatar_url w1 prompt1 = _generate_mock_avatar_url w2 prompt2
  ↔ hash w1 prompt1 = hash w2 prompt2 ∧ time_time w1 = time_time w2.
Proof.
  unfold _generate_mock_avatar_url. split.
  - intros H. apply String.app_inj in H.
    apply append_underscore_inj in H as [Hh Ht];
      [|apply pretty_Z_no_underscore..].
    split.
    + by apply (inj pretty) in Hh.
    + by apply append_inj_r in Ht.
  - by intros [-> ->].
Qed.

(** *** The configuration of the service *)

Lemma after_call_config σ c :
  AvatarProcessingService.moderation_api_url (self (after_call σ c))
  = AvatarProcessingService.moderation_api_url (self σ)
  ∧ AvatarProcessingService.api_token (self (after_call σ c))
    = AvatarProcessingService.api_token (self σ).
Proof.
  destruct c as [w user_id input_data|job_id]; simpl.
  - destruct (submit_job w user_id input_data σ) as [r σ'] eqn:Hsub.
    apply submit_job_inv in Hsub as (Hself & _). cbn [snd]. by rewrite Hself.
  - by rewrite get_job_status_unfold.
Qed.

Lemma after_calls_config σ cs :
  AvatarProcessingService.moderation_api_url (self (after_calls σ cs))
  = AvatarProcessingService.moderation_api_url (self σ)
  ∧ AvatarProcessingService.api_token (self (after_calls σ cs))
    = AvatarProcessingService.api_token (self σ).
Proof.
  revert σ. induction cs as [|c cs IH]; intros σ; [done|].
  unfold after_calls. simpl foldl. fold (after_calls (after_call σ c) cs).
  destruct (IH (after_call σ c)) as [-> ->]. apply after_call_config.
Qed.

(** X15: the URL and the token given to the constructor are what every
    later moderation request uses.  After any sequence of calls on a service
    built with [AvatarProcessingService(url, token)], the request of
    [call_moderation_api] goes to [url], carries the single header
    [Authorization: Bearer <token>], and has the content and the user_id as
    its two form fields, in that order. *)
Theorem moderation_request_after_calls url token cs content user_id :
  moderation_request (self (after_calls (initial url token) cs)) content user_id
  = Request.mk url [("Authorization", "Bearer " +:+ token)]
      [("content", content); ("user_id", user_id)] None.
Proof.
  destruct (after_calls_config (initial url token) cs) as [Hurl Htoken].
  unfold moderation_request. by rewrite Hurl, Htoken.
Qed.

(** *** The dataclass *)

(** [__post_init__] fills in the creation time only when none was given,
    and touches no other field. *)
Lemma __post_init___created_at now j :
  AvatarJob.created_at (AvatarJob.__post_init__ now j)
  = Some (default now (AvatarJob.created_at j))
  ∧ AvatarJob.__post_init__ now j
    = AvatarJob.mk (AvatarJob.id j) (AvatarJob.user_id j) (AvatarJob.status j)
        (AvatarJob.input_data j) (AvatarJob.output_url j)
        (AvatarJob.created_at (AvatarJob.__post_init__ now j))
        (AvatarJob.error_message j).
Proof.
  unfold AvatarJob.__post_init__.
  destruct j as [i u s d o [t|] m]; simpl; done.
Qed.
